(** * The Freshdesk API client ([lib/client.js]): request builder,
      response classifier and facade operations

    The client is a translation shim: every facade method hands a method, a
    URL and optional query/body data to [makeRequest], which builds the
    options object for the [request] transport and installs the handler made
    by [createResponseHandler]; the handler classifies the transport's
    outcome and calls the caller's callback.

    JavaScript is embedded shallowly: values are a data type [JsValue],
    statements run in a small monad [JS] that records the observable events
    (trace lines, callback invocations, submitted requests) and either
    completes normally or throws. *)

From Stdlib Require Import String Ascii List ZArith NArith Bool Lia.
From Stdlib Require Import DecimalString DecimalPos DecimalZ.
Import ListNotations.
Local Open Scope string_scope.
Set Warnings "-register-all".

(** ** JavaScript values *)

(** Numbers are kept as exact decimals [(-1)^negative * coefficient *
    10^exponent], next to the two non-finite kinds. *)
Inductive JsNumber : Type :=
| NaN
| Infinity (negative : bool)
| Finite (negative : bool) (coefficient : N) (exponent : Z).

(** [VObj] is a plain object, its properties in insertion order; [VInst] is
    an object made by a constructor ([Error], [FreshdeskError]), with its
    enumerable own properties; [VFun] is a function, known by its identity
    only. *)
Inductive JsValue : Type :=
| VUndefined
| VNull
| VBool (b : bool)
| VNum (n : JsNumber)
| VStr (s : string)
| VArr (items : list JsValue)
| VObj (props : list (string * JsValue))
| VInst (ctor : string) (props : list (string * JsValue))
| VFun (f : nat).

Definition VInt (z : Z) : JsValue :=
  VNum (Finite (z <? 0)%Z (Z.abs_N z) 0).

(** ToBoolean, the test behind [if (x)] and [x || y]. *)
Definition ToBoolean (v : JsValue) : bool :=
  match v with
  | VUndefined | VNull => false
  | VBool b => b
  | VNum NaN => false
  | VNum (Infinity _) => true
  | VNum (Finite _ c _) => negb (c =? 0)%N
  | VStr s => negb (s =? EmptyString)
  | VArr _ | VObj _ | VInst _ _ | VFun _ => true
  end.

(** [a || b] *)
Definition js_or (a b : JsValue) : JsValue :=
  if ToBoolean a then a else b.

Fixpoint lookup (k : string) (props : list (string * JsValue))
  : option JsValue :=
  match props with
  | [] => None
  | (k', v) :: rest => if k =? k' then Some v else lookup k rest
  end.

(** ** Abrupt completion and the event log *)

Inductive Exn : Type :=
| TypeError
| SyntaxError.

(** A piece of a template literal: literal text, or a substituted value. *)
Inductive Frag : Type :=
| Lit (s : string)
| Sub (v : JsValue).

Module Options.
(** The options object given to [request]. [body] is [None] as long as
    the property has not been assigned. *)
Record t : Type := mk {
  method : string;
  headers : list (string * string);
  url : string;
  qs : JsValue;
  body : option JsValue
}.

Definition set_body (o : t) (b : JsValue) : t :=
  mk (method o) (headers o) (url o) (qs o) (Some b).
End Options.

Inductive Event : Type :=
| EvDebug (line : list Frag)                 (* debug(`...`) *)
| EvCall (f : nat) (args : list JsValue)     (* a callback is invoked *)
| EvRequest (options : Options.t).           (* request(options, ...) *)

Definition Completion (A : Type) : Type := (Exn + A)%type.

(** A computation: the events it emitted, in order, and how it ended. *)
Definition JS (A : Type) : Type := (list Event * Completion A)%type.

Definition ret {A} (a : A) : JS A := ([], inr a).

Definition throw {A} (e : Exn) : JS A := ([], inl e).

Definition bind {A B} (m : JS A) (k : A -> JS B) : JS B :=
  match m with
  | (l, inl e) => (l, inl e)
  | (l, inr a) => let (l', r) := k a in ((l ++ l')%list, r)
  end.

Definition emit (e : Event) : JS unit := ([e], inr tt).

(** [try { m } catch (err) { ... }]: the completion of [m] as a value. *)
Definition try_ {A} (m : JS A) : JS (Completion A) :=
  (fst m, inr (snd m)).

Declare Scope js_scope.
Delimit Scope js_scope with js.
Notation "x <- m ;; k" := (bind m (fun x => k))
  (at level 61, m at next level, right associativity) : js_scope.
Notation "m ;; k" := (bind m (fun _ => k))
  (at level 61, right associativity) : js_scope.
Local Open Scope js_scope.

Definition log {A} (m : JS A) : list Event := fst m.
Definition completion {A} (m : JS A) : Completion A := snd m.

(** [debug(...)] writes one trace line. *)
Definition debug (line : list Frag) : JS unit := emit (EvDebug line).

(** [f(args)]: calling anything but a function is a TypeError. The
    callbacks are the caller's: their invocation is an event, and they
    return undefined. *)
Definition call (f : JsValue) (args : list JsValue) : JS JsValue :=
  match f with
  | VFun id => emit (EvCall id args) ;; ret VUndefined
  | _ => throw TypeError
  end.

(** [v.k]. Undefined and null have no properties; objects answer with their
    own property or undefined. The keys read by the client ([description])
    are neither indices nor inherited, so the other values answer
    undefined. *)
Definition GetV (v : JsValue) (k : string) : JS JsValue :=
  match v with
  | VUndefined | VNull => throw TypeError
  | VObj props | VInst _ props =>
      match lookup k props with
      | Some x => ret x
      | None => ret VUndefined
      end
  | _ => ret VUndefined
  end.

(** ** The host: JSON and [Error] *)

(** [JSON.parse] and [JSON.stringify] are the engine's. [JSON_parse s] is
    [None] when the text is rejected (a SyntaxError is thrown);
    [JSON_stringify v] is [None] when the result is undefined. [Error_stack]
    is the text [(new Error()).stack] evaluates to. *)
Class Host : Type := {
  JSON_parse : string -> option JsValue;
  JSON_stringify : JsValue -> option string;
  Error_stack : string
}.

(** ** The transport's response *)

Module Http.
(** [response.request]: the request a response answers. *)
Record ClientRequest : Type := {
  path : string;
  body : JsValue
}.

(** The response object of [request]; it always carries its request. *)
Record Response : Type := {
  statusCode : Z;
  request : ClientRequest
}.
End Http.

(** The handler installed on the transport: [function (error, response,
    body)]. [response] and [body] are [None] when undefined. *)
Definition Handler : Type :=
  JsValue -> option Http.Response -> option string -> JS JsValue.

Section Client.
Context {host : Host}.

(** [JSON.parse(body)]: an undefined argument is read as the text
    "undefined". *)
Definition JSON_parse_ (body : option string) : JS JsValue :=
  let text := match body with Some s => s | None => "undefined" end in
  match JSON_parse text with
  | Some v => ret v
  | None => throw SyntaxError
  end.

(** [JSON.stringify(data)] as a value. *)
Definition JSON_stringify_ (data : JsValue) : JsValue :=
  match JSON_stringify data with
  | Some s => VStr s
  | None => VUndefined
  end.

(** [new FreshdeskError(message, data)] *)
Definition FreshdeskError (message data : JsValue) : JsValue :=
  VInst "FreshdeskError"
    [ ("name", VStr "FreshdeskError");
      ("message", js_or message (VStr "Error in Freshdesk's client API"));
      ("stack", VStr Error_stack);
      ("data", data) ].

(** [response.request], [response.statusCode]: a TypeError when
    [response] is undefined. *)
Definition response_request (response : option Http.Response)
  : JS Http.ClientRequest :=
  match response with
  | Some r => ret (Http.request r)
  | None => throw TypeError
  end.

Definition response_statusCode (response : option Http.Response) : JS Z :=
  match response with
  | Some r => ret (Http.statusCode r)
  | None => throw TypeError
  end.

(** The trace lines share their tail: [..., req path
    [${response.request.path}] raw body: ${response.request.body}]. The
    substitutions are evaluated left to right before [debug] is called. *)
Definition trace (head : string) (what : JsValue)
    (response : option Http.Response) : JS unit :=
  rq1 <- response_request response ;;
  rq2 <- response_request response ;;
  debug [ Lit head; Sub what;
          Lit "], req path ["; Sub (VStr (Http.path rq1));
          Lit "] raw body: "; Sub (Http.body rq2) ].

Definition createResponseHandler (cb : JsValue) : Handler :=
  fun error response body =>
    if ToBoolean error then
      trace "Unexpected status [" error response ;;
      call cb [error]
    else
      let data := VNull in
      status <- response_statusCode response ;;
      if ((status =? 200) || (status =? 201))%Z then
        r <- try_ (JSON_parse_ body) ;;
        match r with
        | inl err =>
            trace "Not a JSON resp with valid status [" (VInt status)
              response ;;
            call cb [FreshdeskError (VStr "Not a JSON response from API") data]
        | inr data =>
            call cb [VNull; data]
        end
      else if (status =? 204)%Z then
        call cb [VNull; VNull]
      else
        r <- try_ (JSON_parse_ body) ;;
        match r with
        | inl err =>
            trace "Not a JSON resp for unexpected status [" (VInt status)
              response ;;
            call cb [FreshdeskError (VStr "Not a JSON response from API") data]
        | inr data =>
            trace "Unexpected/Error status [" (VInt status) response ;;
            description <- GetV data "description" ;;
            call cb [FreshdeskError description data]
        end.

(** ** The transport *)

(** What the network answers to a request: the three arguments the
    transport gives to its completion handler. *)
Definition Outcome : Type :=
  (JsValue * option Http.Response * option string)%type.

(** [request(options, handler)]: the request is submitted and the handler
    is run once on the outcome. *)
Definition request (net : Options.t -> Outcome)
    (options : Options.t) (handler : Handler) : JS JsValue :=
  emit (EvRequest options) ;;
  let '(error, response, body) := net options in
  handler error response body.

Section Requests.
Variable net : Options.t -> Outcome.

Definition makeRequest (method auth url : string) (qs data cb : JsValue)
  : JS JsValue :=
  let options :=
    Options.mk method
      [ ("Content-Type", "application/json"); ("Authorization", auth) ]
      url qs None in
  let options :=
    if ToBoolean data
    then Options.set_body options (JSON_stringify_ data)
    else options in
  request net options (createResponseHandler cb).

(** ** The client and its facade operations *)

Record Freshdesk : Type := {
  baseUrl : string;
  _auth : string
}.

(** [`${id}`] for an integer id. *)
Definition Number_toString (id : Z) : string :=
  NilZero.string_of_int (Z.to_int id).

Section Facade.
Variable this : Freshdesk.

Definition listAllTickets (params cb : JsValue) : JS JsValue :=
  makeRequest "GET" (_auth this) (baseUrl this ++ "/api/v2/tickets")
    params VNull cb.

Definition listAllTicketFields (cb : JsValue) : JS JsValue :=
  makeRequest "GET" (_auth this) (baseUrl this ++ "/api/v2/ticket_fields")
    VNull VNull cb.

Definition createTicket (data cb : JsValue) : JS JsValue :=
  makeRequest "POST" (_auth this) (baseUrl this ++ "/api/v2/tickets")
    VNull data cb.

Definition getTicket (id : Z) (cb : JsValue) : JS JsValue :=
  makeRequest "GET" (_auth this)
    (baseUrl this ++ "/api/v2/tickets/" ++ Number_toString id)
    VNull VNull cb.

Definition updateTicket (id : Z) (data cb : JsValue) : JS JsValue :=
  makeRequest "PUT" (_auth this)
    (baseUrl this ++ "/api/v2/tickets/" ++ Number_toString id)
    VNull data cb.

Definition deleteTicket (id : Z) (cb : JsValue) : JS JsValue :=
  makeRequest "DELETE" (_auth this)
    (baseUrl this ++ "/api/v2/tickets/" ++ Number_toString id)
    VNull VNull cb.

Definition restoreTicket (id : Z) (cb : JsValue) : JS JsValue :=
  makeRequest "PUT" (_auth this)
    (baseUrl this ++ "/api/v2/tickets/" ++ Number_toString id ++ "/restore")
    VNull VNull cb.

(** The call has five arguments: [cb] is in the place of [data], and the
    parameter [cb] of [makeRequest] is undefined. *)
Definition listAllConversations (id : Z) (cb : JsValue) : JS JsValue :=
  makeRequest "GET" (_auth this)
    (baseUrl this ++ "/api/v2/tickets/" ++ Number_toString id
       ++ "/conversations")
    VNull cb VUndefined.

Definition listAllTimeEntries (id : Z) (cb : JsValue) : JS JsValue :=
  makeRequest "GET" (_auth this)
    (baseUrl this ++ "/api/v2/tickets/" ++ Number_toString id
       ++ "/time_entries")
    VNull VNull cb.

Definition createReply (id : Z) (data cb : JsValue) : JS JsValue :=
  makeRequest "POST" (_auth this)
    (baseUrl this ++ "/api/v2/tickets/" ++ Number_toString id ++ "/reply")
    VNull data cb.

Definition createNote (id : Z) (data cb : JsValue) : JS JsValue :=
  makeRequest "POST" (_auth this)
    (baseUrl this ++ "/api/v2/tickets/" ++ Number_toString id ++ "/notes")
    VNull data cb.

Definition updateConversation (id : Z) (data cb : JsValue) : JS JsValue :=
  makeRequest "PUT" (_auth this)
    (baseUrl this ++ "/api/v2/conversations/" ++ Number_toString id)
    VNull data cb.

Definition deleteConversation (id : Z) (cb : JsValue) : JS JsValue :=
  makeRequest "DELETE" (_auth this)
    (baseUrl this ++ "/api/v2/conversations/" ++ Number_toString id)
    VNull VNull cb.

Definition createContact (data cb : JsValue) : JS JsValue :=
  makeRequest "POST" (_auth this) (baseUrl this ++ "/api/v2/contacts")
    VNull data cb.

Definition getContact (id : Z) (cb : JsValue) : JS JsValue :=
  makeRequest "GET" (_auth this)
    (baseUrl this ++ "/api/v2/contacts/" ++ Number_toString id)
    VNull VNull cb.

Definition listAllContacts (params cb : JsValue) : JS JsValue :=
  makeRequest "GET" (_auth this) (baseUrl this ++ "/api/v2/contacts")
    params VNull cb.

Definition updateContact (id : Z) (data cb : JsValue) : JS JsValue :=
  makeRequest "PUT" (_auth this)
    (baseUrl this ++ "/api/v2/contacts/" ++ Number_toString id)
    VNull data cb.

Definition deleteContact (id : Z) (cb : JsValue) : JS JsValue :=
  makeRequest "DELETE" (_auth this)
    (baseUrl this ++ "/api/v2/contacts/" ++ Number_toString id)
    VNull VNull cb.

Definition makeAgent (id : Z) (cb : JsValue) : JS JsValue :=
  makeRequest "PUT" (_auth this)
    (baseUrl this ++ "/api/v2/contacts/" ++ Number_toString id
       ++ "/make_agent")
    VNull VNull cb.

Definition listAllContactFields (cb : JsValue) : JS JsValue :=
  makeRequest "GET" (_auth this) (baseUrl this ++ "/api/v2/contact_fields")
    VNull VNull cb.

Definition createCompany (data cb : JsValue) : JS JsValue :=
  makeRequest "POST" (_auth this) (baseUrl this ++ "/api/v2/companies")
    VNull data cb.

Definition getCompany (id : Z) (cb : JsValue) : JS JsValue :=
  makeRequest "GET" (_auth this)
    (baseUrl this ++ "/api/v2/companies/" ++ Number_toString id)
    VNull VNull cb.

Definition listAllCompanies (cb : JsValue) : JS JsValue :=
  makeRequest "GET" (_auth this) (baseUrl this ++ "/api/v2/companies")
    VNull VNull cb.

Definition updateCompany (id : Z) (data cb : JsValue) : JS JsValue :=
  makeRequest "PUT" (_auth this)
    (baseUrl this ++ "/api/v2/companies/" ++ Number_toString id)
    VNull data cb.

Definition deleteCompany (id : Z) (data cb : JsValue) : JS JsValue :=
  makeRequest "DELETE" (_auth this)
    (baseUrl this ++ "/api/v2/companies/" ++ Number_toString id)
    VNull VNull cb.

End Facade.
End Requests.
End Client.

(** ** The constructor *)

Definition base64_alphabet : string :=
  "ABCDEFGHIJKLMNOPQRSTUVWXYZabcdefghijklmnopqrstuvwxyz0123456789+/".

Definition base64_digit (n : N) : ascii :=
  match String.get (N.to_nat n) base64_alphabet with
  | Some c => c
  | None => "="%char
  end.

(** [buffer.toString('base64')] on the bytes of a string. *)
Fixpoint base64 (s : string) : string :=
  match s with
  | EmptyString => EmptyString
  | String a EmptyString =>
      let x := N_of_ascii a in
      String (base64_digit (x / 4))
        (String (base64_digit (x mod 4 * 16)) "==")
  | String a (String b EmptyString) =>
      let x := N_of_ascii a in
      let y := N_of_ascii b in
      String (base64_digit (x / 4))
        (String (base64_digit (x mod 4 * 16 + y / 16))
           (String (base64_digit (y mod 16 * 4)) "="))
  | String a (String b (String c rest)) =>
      let x := N_of_ascii a in
      let y := N_of_ascii b in
      let z := N_of_ascii c in
      String (base64_digit (x / 4))
        (String (base64_digit (x mod 4 * 16 + y / 16))
           (String (base64_digit (y mod 16 * 4 + z / 64))
              (String (base64_digit (z mod 64)) (base64 rest))))
  end%N.

(** [new Freshdesk(baseUrl, apiKey)] *)
Definition new_Freshdesk (baseUrl apiKey : string) : Freshdesk :=
  {| baseUrl := baseUrl;
     _auth := "Basic " ++ base64 (apiKey ++ ":X") |}.

(** ** A reference host

    An executable [Host], used to run the client on concrete bodies: a
    decoder and an encoder for the JSON grammar (ECMA-404). Strings are
    byte strings holding UTF-8 text; numbers are exact decimals and are not
    rounded to binary64. *)

Module RefJSON.

Definition dquote : ascii := "034"%char.

(** [quoted s] is [s] between double quotes. *)
Definition quoted (s : string) : string :=
  String dquote (s ++ String dquote EmptyString).

Definition is_ws (c : ascii) : bool :=
  match c with
  | " " | "009" | "010" | "013" => true
  | _ => false
  end%char.

Fixpoint skip_ws (s : string) : string :=
  match s with
  | String c rest => if is_ws c then skip_ws rest else s
  | EmptyString => s
  end.

Fixpoint strip_prefix (p s : string) : option string :=
  match p, s with
  | EmptyString, _ => Some s
  | String a p', String b s' =>
      if Ascii.eqb a b then strip_prefix p' s' else None
  | String _ _, EmptyString => None
  end.

Definition digit (c : ascii) : option N :=
  let n := N_of_ascii c in
  if ((48 <=? n) && (n <=? 57))%N then Some (n - 48)%N else None.

Definition hex_digit (c : ascii) : option N :=
  let n := N_of_ascii c in
  if ((48 <=? n) && (n <=? 57))%N then Some (n - 48)%N
  else if ((65 <=? n) && (n <=? 70))%N then Some (n - 55)%N
  else if ((97 <=? n) && (n <=? 102))%N then Some (n - 87)%N
  else None.

Definition hex4 (a b c d : ascii) : option N :=
  match hex_digit a, hex_digit b, hex_digit c, hex_digit d with
  | Some x, Some y, Some z, Some w =>
      Some (((x * 16 + y) * 16 + z) * 16 + w)%N
  | _, _, _, _ => None
  end.

(** *** Strings *)

(** What a string literal is made of: a byte of the text, or a UTF-16 code
    unit written [\uXXXX]. *)
Inductive StrItem : Type :=
| Byte (c : ascii)
| Code (u : N).

Definition utf8 (cp : N) : string :=
  let b (n : N) := ascii_of_N n in
  (if cp <? 128 then String (b cp) EmptyString
   else if cp <? 2048 then
     String (b (192 + cp / 64)) (String (b (128 + cp mod 64)) EmptyString)
   else if cp <? 65536 then
     String (b (224 + cp / 4096))
       (String (b (128 + cp / 64 mod 64))
          (String (b (128 + cp mod 64)) EmptyString))
   else
     String (b (240 + cp / 262144))
       (String (b (128 + cp / 4096 mod 64))
          (String (b (128 + cp / 64 mod 64))
             (String (b (128 + cp mod 64)) EmptyString))))%N.

(** A high surrogate followed by a low one is one code point. *)
Fixpoint items_to_string (l : list StrItem) : string :=
  match l with
  | [] => EmptyString
  | Byte c :: rest => String c (items_to_string rest)
  | Code hi :: ((Code lo :: rest') as rest) =>
      if ((55296 <=? hi) && (hi <=? 56319)
          && (56320 <=? lo) && (lo <=? 57343))%N
      then utf8 (65536 + (hi - 55296) * 1024 + (lo - 56320))%N
           ++ items_to_string rest'
      else utf8 hi ++ items_to_string rest
  | Code u :: rest => utf8 u ++ items_to_string rest
  end.

(** The characters of a string literal, after its opening quote, up to
    the closing one. *)
Fixpoint string_items (s : string) : option (list StrItem * string) :=
  let cons (i : StrItem) (r : option (list StrItem * string)) :=
    match r with
    | Some (l, rest) => Some (i :: l, rest)
    | None => None
    end in
  match s with
  | EmptyString => None
  | String "034" rest => Some ([], rest)
  | String "092" EmptyString => None
  | String "092" (String e rest) =>
      match e with
      | "034" | "092" | "/" => cons (Byte e) (string_items rest)
      | "b" => cons (Byte "008") (string_items rest)
      | "f" => cons (Byte "012") (string_items rest)
      | "n" => cons (Byte "010") (string_items rest)
      | "r" => cons (Byte "013") (string_items rest)
      | "t" => cons (Byte "009") (string_items rest)
      | "u" =>
          match rest with
          | String a (String b (String c (String d rest'))) =>
              match hex4 a b c d with
              | Some u => cons (Code u) (string_items rest')
              | None => None
              end
          | _ => None
          end
      | _ => None
      end
  | String c rest =>
      if (N_of_ascii c <? 32)%N then None
      else cons (Byte c) (string_items rest)
  end%char.

Definition parse_string (s : string) : option (string * string) :=
  match string_items s with
  | Some (l, rest) => Some (items_to_string l, rest)
  | None => None
  end.

(** *** Numbers *)

(** The digits at the head of [s]: their value after [acc], how many they
    are, and the rest. *)
Fixpoint digits (s : string) (acc : N) (count : nat) : N * nat * string :=
  match s with
  | String c rest =>
      match digit c with
      | Some d => digits rest (acc * 10 + d)%N (S count)
      | None => (acc, count, s)
      end
  | EmptyString => (acc, count, s)
  end.

Fixpoint strip_zeros (fuel : nat) (c : N) (e : Z) : N * Z :=
  match fuel with
  | O => (c, e)
  | S fuel' =>
      if (c mod 10 =? 0)%N then strip_zeros fuel' (c / 10)%N (e + 1)%Z
      else (c, e)
  end.

(** Coefficient and exponent with the trailing zeros of the coefficient
    moved to the exponent. *)
Definition scientific (c : N) (e : Z) : N * Z :=
  if (c =? 0)%N then (0%N, 0%Z)
  else strip_zeros (N.to_nat (N.size c)) c e.

(** The normal form of a finite number: an integer has exponent 0, any
    other number a coefficient that does not end in 0. *)
Definition normalize (negative : bool) (c : N) (e : Z) : JsNumber :=
  let (c', e') := scientific c e in
  if (0 <? e')%Z then Finite negative (c' * 10 ^ Z.to_N e')%N 0
  else Finite negative c' e'.

Definition parse_int (s : string) : option (N * string) :=
  match s with
  | String "0" rest => Some (0%N, rest)
  | _ =>
      match digits s 0 0 with
      | (_, O, _) => None
      | (n, S _, rest) => Some (n, rest)
      end
  end%char.

Definition parse_frac (s : string) : option (N * nat * string) :=
  match s with
  | String "." rest =>
      match digits rest 0 0 with
      | (_, O, _) => None
      | (n, S k, rest') => Some (n, S k, rest')
      end
  | _ => Some (0%N, O, s)
  end%char.

Definition parse_exp (s : string) : option (Z * string) :=
  let unsigned (negative : bool) (r : string) :=
    match digits r 0 0 with
    | (_, O, _) => None
    | (n, S _, rest) =>
        Some (if negative then (- Z.of_N n)%Z else Z.of_N n, rest)
    end in
  match s with
  | String ("e" | "E") (String "-" rest) => unsigned true rest
  | String ("e" | "E") (String "+" rest) => unsigned false rest
  | String ("e" | "E") rest => unsigned false rest
  | _ => Some (0%Z, s)
  end%char.

Definition parse_number (s : string) : option (JsNumber * string) :=
  let (negative, s1) :=
    match s with
    | String "-"%char rest => (true, rest)
    | _ => (false, s)
    end in
  match parse_int s1 with
  | None => None
  | Some (i, s2) =>
      match parse_frac s2 with
      | None => None
      | Some (f, k, s3) =>
          match parse_exp s3 with
          | None => None
          | Some (x, s4) =>
              Some (normalize negative
                      (i * 10 ^ N.of_nat k + f)%N (x - Z.of_nat k)%Z,
                    s4)
          end
      end
  end.

(** *** Objects *)

(** An array index is the decimal form of an integer below 2^32 - 1; an
    object lists its index keys first, in ascending order, then its other
    keys in insertion order. *)
Definition index_key (k : string) : option N :=
  match k with
  | EmptyString => None
  | String "0"%char EmptyString => Some 0%N
  | String "0"%char _ => None
  | _ =>
      match digits k 0 0 with
      | (n, _, EmptyString) => if (n <? 4294967295)%N then Some n else None
      | _ => None
      end
  end.

Fixpoint replace_prop (k : string) (v : JsValue)
    (props : list (string * JsValue)) : option (list (string * JsValue)) :=
  match props with
  | [] => None
  | (k', v') :: rest =>
      if k =? k' then Some ((k, v) :: rest)
      else match replace_prop k v rest with
           | Some rest' => Some ((k', v') :: rest')
           | None => None
           end
  end.

Fixpoint insert_index (i : N) (k : string) (v : JsValue)
    (props : list (string * JsValue)) : list (string * JsValue) :=
  match props with
  | [] => [(k, v)]
  | (k', v') :: rest =>
      match index_key k' with
      | Some j =>
          if (j <? i)%N then (k', v') :: insert_index i k v rest
          else (k, v) :: props
      | None => (k, v) :: props
      end
  end.

(** [o[k] = v] on the properties of [o]. *)
Definition set_prop (k : string) (v : JsValue)
    (props : list (string * JsValue)) : list (string * JsValue) :=
  match replace_prop k v props with
  | Some props' => props'
  | None =>
      match index_key k with
      | Some i => insert_index i k v props
      | None => (props ++ [(k, v)])%list
      end
  end.

(** *** Values *)

Definition starts_number (c : ascii) : bool :=
  match c with
  | "-"%char => true
  | _ => match digit c with Some _ => true | None => false end
  end.

Fixpoint parse_value (fuel : nat) (s : string) : option (JsValue * string) :=
  match fuel with
  | O => None
  | S fuel' =>
      let s := skip_ws s in
      match s with
      | EmptyString => None
      | String c rest =>
          if Ascii.eqb c "n" then
            option_map (pair VNull) (strip_prefix "ull" rest)
          else if Ascii.eqb c "t" then
            option_map (pair (VBool true)) (strip_prefix "rue" rest)
          else if Ascii.eqb c "f" then
            option_map (pair (VBool false)) (strip_prefix "alse" rest)
          else if Ascii.eqb c dquote then
            match parse_string rest with
            | Some (str, r) => Some (VStr str, r)
            | None => None
            end
          else if Ascii.eqb c "[" then
            match skip_ws rest with
            | String "]"%char r => Some (VArr [], r)
            | _ => parse_elements fuel' rest []
            end
          else if Ascii.eqb c "{" then
            match skip_ws rest with
            | String "}"%char r => Some (VObj [], r)
            | _ => parse_members fuel' rest []
            end
          else if starts_number c then
            match parse_number s with
            | Some (n, r) => Some (VNum n, r)
            | None => None
            end
          else None
      end
  end

with parse_elements (fuel : nat) (s : string) (acc : list JsValue)
  : option (JsValue * string) :=
  match fuel with
  | O => None
  | S fuel' =>
      match parse_value fuel' s with
      | Some (v, r) =>
          match skip_ws r with
          | String ","%char r' => parse_elements fuel' r' (v :: acc)
          | String "]"%char r' => Some (VArr (rev (v :: acc)), r')
          | _ => None
          end
      | None => None
      end
  end

with parse_members (fuel : nat) (s : string) (acc : list (string * JsValue))
  : option (JsValue * string) :=
  match fuel with
  | O => None
  | S fuel' =>
      match skip_ws s with
      | String c r0 =>
          if Ascii.eqb c dquote then
            match parse_string r0 with
            | Some (k, r1) =>
                match skip_ws r1 with
                | String ":"%char r2 =>
                    match parse_value fuel' r2 with
                    | Some (v, r3) =>
                        match skip_ws r3 with
                        | String ","%char r' =>
                            parse_members fuel' r' (set_prop k v acc)
                        | String "}"%char r' =>
                            Some (VObj (set_prop k v acc), r')
                        | _ => None
                        end
                    | None => None
                    end
                | _ => None
                end
            | None => None
            end
          else None
      | EmptyString => None
      end
  end.

(** [JSON.parse(text)]: one value, white space around it, nothing else. *)
Definition parse (text : string) : option JsValue :=
  match parse_value (S (String.length text)) text with
  | Some (v, rest) =>
      match skip_ws rest with
      | EmptyString => Some v
      | String _ _ => None
      end
  | None => None
  end.

(** *** Encoding *)

Fixpoint zeros (n : nat) : string :=
  match n with
  | O => EmptyString
  | S n' => String "0" (zeros n')
  end.

(** Number::toString on a finite, non-zero magnitude: [ds] are the
    significant digits and [n] the position of the decimal point after
    their first. *)
Definition format_digits (ds : string) (n : Z) : string :=
  let k := Z.of_nat (String.length ds) in
  if ((k <=? n) && (n <=? 21))%Z then
    ds ++ zeros (Z.to_nat (n - k))
  else if ((0 <? n) && (n <=? 21))%Z then
    substring 0 (Z.to_nat n) ds ++ "."
      ++ substring (Z.to_nat n) (Z.to_nat (k - n)) ds
  else if ((-6 <? n) && (n <=? 0))%Z then
    "0." ++ zeros (Z.to_nat (- n)) ++ ds
  else
    let x := (n - 1)%Z in
    let mantissa :=
      if (k =? 1)%Z then ds
      else substring 0 1 ds ++ "."
             ++ substring 1 (Z.to_nat (k - 1)) ds in
    mantissa ++ "e" ++ (if (x <? 0)%Z then "-" else "+")
      ++ NilZero.string_of_uint (N.to_uint (Z.abs_N x)).

Definition number_to_string (negative : bool) (c : N) (e : Z) : string :=
  let (c', e') := scientific c e in
  if (c' =? 0)%N then "0"
  else
    let ds := NilZero.string_of_uint (N.to_uint c') in
    (if negative then "-" else EmptyString)
      ++ format_digits ds (Z.of_nat (String.length ds) + e').

Definition hex_char (n : N) : ascii :=
  match String.get (N.to_nat n) "0123456789abcdef" with
  | Some c => c
  | None => "0"%char
  end.

Fixpoint escape (s : string) : string :=
  match s with
  | EmptyString => EmptyString
  | String c rest =>
      let n := N_of_ascii c in
      (if Ascii.eqb c dquote then String "092" (String dquote EmptyString)
       else if Ascii.eqb c "092" then "\\"
       else if (n =? 8)%N then "\b"
       else if (n =? 12)%N then "\f"
       else if (n =? 10)%N then "\n"
       else if (n =? 13)%N then "\r"
       else if (n =? 9)%N then "\t"
       else if (n <? 32)%N then
         "\u00" ++ String (hex_char (n / 16))
                     (String (hex_char (n mod 16)) EmptyString)
       else String c EmptyString)
      ++ escape rest
  end.

Definition join (l : list string) : string := String.concat "," l.

(** [JSON.stringify(value)]; [None] is undefined. *)
Fixpoint stringify (v : JsValue) : option string :=
  let element (x : JsValue) : string :=
    match stringify x with
    | Some t => t
    | None => "null"
    end in
  let member (kv : string * JsValue) : list string :=
    match stringify (snd kv) with
    | Some t => [quoted (escape (fst kv)) ++ ":" ++ t]
    | None => []
    end in
  match v with
  | VUndefined | VFun _ => None
  | VNull => Some "null"
  | VBool true => Some "true"
  | VBool false => Some "false"
  | VNum (Finite negative c e) => Some (number_to_string negative c e)
  | VNum _ => Some "null"
  | VStr s => Some (quoted (escape s))
  | VArr items => Some ("[" ++ join (map element items) ++ "]")
  | VObj props | VInst _ props =>
      Some ("{" ++ join (flat_map member props) ++ "}")
  end.

End RefJSON.

#[export] Instance reference_host : Host := {|
  JSON_parse := RefJSON.parse;
  JSON_stringify := RefJSON.stringify;
  Error_stack := "Error"
|}.

(** ** Reading a log *)

(** The callback invocations of a log: which function, with which
    arguments. *)
Definition calls (l : list Event) : list (nat * list JsValue) :=
  flat_map (fun e => match e with EvCall f args => [(f, args)] | _ => [] end) l.

(** The requests submitted to the transport. *)
Definition submitted (l : list Event) : list Options.t :=
  flat_map (fun e => match e with EvRequest o => [o] | _ => [] end) l.

(** An own property of an object, as [lookup] sees it. *)
Definition own (v : JsValue) (k : string) : option JsValue :=
  match v with
  | VObj props | VInst _ props => lookup k props
  | _ => None
  end.

Definition generic_message : string := "Error in Freshdesk's client API".
Definition not_json_message : string := "Not a JSON response from API".

(** The options [makeRequest] builds. *)
Definition built_options {host : Host} (method auth url : string)
    (qs data : JsValue)
  : Options.t :=
  {| Options.method := method;
     Options.headers :=
       [ ("Content-Type", "application/json"); ("Authorization", auth) ];
     Options.url := url;
     Options.qs := qs;
     Options.body :=
       if ToBoolean data then Some (JSON_stringify_ data) else None |}.

(** ** Fixtures for concrete runs *)

Module Fixtures.

Definition demo : Freshdesk :=
  new_Freshdesk "https://demo.freshdesk.com" "KEY".

(** A response with the given status, to a request without a body. *)
Definition response_of (status : Z) : Http.Response :=
  {| Http.statusCode := status;
     Http.request := {| Http.path := "/api/v2/companies";
                        Http.body := VUndefined |} |}.

(** The network always answers with this status and body. *)
Definition replies (status : Z) (body : string) : Options.t -> Outcome :=
  fun _ => (VNull, Some (response_of status), Some body).

(** The error of a refused connection, as the transport reports it: with
    neither response nor body. *)
Definition econnrefused : JsValue :=
  VInst "Error"
    [ ("errno", VStr "ECONNREFUSED"); ("code", VStr "ECONNREFUSED");
      ("syscall", VStr "connect") ].

Definition refuses : Options.t -> Outcome :=
  fun _ => (econnrefused, None, None).

(** [{"description":<text>}] *)
Definition description_body (text : string) : string :=
  "{" ++ RefJSON.quoted "description" ++ ":" ++ RefJSON.quoted text ++ "}".

(** [{"code":"invalid_credentials"}] *)
Definition code_body : string :=
  "{" ++ RefJSON.quoted "code" ++ ":"
      ++ RefJSON.quoted "invalid_credentials" ++ "}".

End Fixtures.

(** ** The method table *)

(** A method of [Freshdesk.prototype] with the arguments it is called
    with, before the callback. *)
Inductive Operation : Type :=
| ListAllTickets (params : JsValue)
| ListAllTicketFields
| CreateTicket (data : JsValue)
| GetTicket (id : Z)
| UpdateTicket (id : Z) (data : JsValue)
| DeleteTicket (id : Z)
| RestoreTicket (id : Z)
| ListAllConversations (id : Z)
| ListAllTimeEntries (id : Z)
| CreateReply (id : Z) (data : JsValue)
| CreateNote (id : Z) (data : JsValue)
| UpdateConversation (id : Z) (data : JsValue)
| DeleteConversation (id : Z)
| CreateContact (data : JsValue)
| GetContact (id : Z)
| ListAllContacts (params : JsValue)
| UpdateContact (id : Z) (data : JsValue)
| DeleteContact (id : Z)
| MakeAgent (id : Z)
| ListAllContactFields
| CreateCompany (data : JsValue)
| GetCompany (id : Z)
| ListAllCompanies
| UpdateCompany (id : Z) (data : JsValue)
| DeleteCompany (id : Z) (data : JsValue).

(** [this[op](..., cb)] *)
Definition invoke {host : Host} (net : Options.t -> Outcome)
    (this : Freshdesk) (op : Operation) (cb : JsValue) : JS JsValue :=
  match op with
  | ListAllTickets params => listAllTickets net this params cb
  | ListAllTicketFields => listAllTicketFields net this cb
  | CreateTicket data => createTicket net this data cb
  | GetTicket id => getTicket net this id cb
  | UpdateTicket id data => updateTicket net this id data cb
  | DeleteTicket id => deleteTicket net this id cb
  | RestoreTicket id => restoreTicket net this id cb
  | ListAllConversations id => listAllConversations net this id cb
  | ListAllTimeEntries id => listAllTimeEntries net this id cb
  | CreateReply id data => createReply net this id data cb
  | CreateNote id data => createNote net this id data cb
  | UpdateConversation id data => updateConversation net this id data cb
  | DeleteConversation id => deleteConversation net this id cb
  | CreateContact data => createContact net this data cb
  | GetContact id => getContact net this id cb
  | ListAllContacts params => listAllContacts net this params cb
  | UpdateContact id data => updateContact net this id data cb
  | DeleteContact id => deleteContact net this id cb
  | MakeAgent id => makeAgent net this id cb
  | ListAllContactFields => listAllContactFields net this cb
  | CreateCompany data => createCompany net this data cb
  | GetCompany id => getCompany net this id cb
  | ListAllCompanies => listAllCompanies net this cb
  | UpdateCompany id data => updateCompany net this id data cb
  | DeleteCompany id data => deleteCompany net this id data cb
  end.


(** ** Reading a credential back *)




(** * Properties *)

(** ** The monad *)

Lemma bind_ret {A B} (a : A) (k : A -> JS B) : bind (ret a) k = k a.
Proof. unfold bind, ret. destruct (k a); reflexivity. Qed.

Lemma bind_throw {A B} (e : Exn) (k : A -> JS B) : bind (throw e) k = throw e.
Proof. reflexivity. Qed.

Lemma bind_emit {B} (e : Event) (k : unit -> JS B) :
  bind (emit e) k = (e :: log (k tt), completion (k tt)).
Proof. unfold bind, emit, log, completion. destruct (k tt); reflexivity. Qed.

Lemma call_fun (f : nat) (args : list JsValue) :
  call (VFun f) args = ([EvCall f args], inr VUndefined).
Proof. reflexivity. Qed.

Section HandlerFacts.
Context {host : Host}.

Lemma trace_some (head : string) (what : JsValue) (r : Http.Response) :
  trace head what (Some r)
  = emit (EvDebug [ Lit head; Sub what;
                    Lit "], req path [";
                    Sub (VStr (Http.path (Http.request r)));
                    Lit "] raw body: "; Sub (Http.body (Http.request r)) ]).
Proof. reflexivity. Qed.

Lemma trace_none (head : string) (what : JsValue) :
  trace head what None = throw TypeError.
Proof. reflexivity. Qed.

Lemma FreshdeskError_message (message data : JsValue) :
  own (FreshdeskError message data) "message"
  = Some (js_or message (VStr generic_message)).
Proof. reflexivity. Qed.

Lemma FreshdeskError_data (message data : JsValue) :
  own (FreshdeskError message data) "data" = Some data.
Proof. reflexivity. Qed.

(** The three classes of status the [switch] tells apart. *)
Lemma status_cases (s : Z) :
  ((s = 200 \/ s = 201) \/ s = 204
   \/ (s <> 200 /\ s <> 201 /\ s <> 204))%Z.
Proof. lia. Qed.

Lemma status_success (s : Z) :
  (s = 200 \/ s = 201)%Z -> ((s =? 200) || (s =? 201))%Z = true.
Proof. intros [-> | ->]; reflexivity. Qed.

Lemma status_other (s : Z) :
  (s <> 200 /\ s <> 201)%Z -> ((s =? 200) || (s =? 201))%Z = false.
Proof.
  intros [H1 H2]. apply Z.eqb_neq in H1, H2. now rewrite H1, H2.
Qed.

(** The handler on a 200 or 201 response. *)
Lemma handler_success (cb error : JsValue) (r : Http.Response)
    (body : option string) :
  ToBoolean error = false ->
  (Http.statusCode r = 200 \/ Http.statusCode r = 201)%Z ->
  createResponseHandler cb error (Some r) body
  = (x <- try_ (JSON_parse_ body) ;;
     match x with
     | inl _ =>
         trace "Not a JSON resp with valid status ["
           (VInt (Http.statusCode r)) (Some r) ;;
         call cb [FreshdeskError (VStr not_json_message) VNull]
     | inr data => call cb [VNull; data]
     end).
Proof.
  intros He Hs. unfold createResponseHandler. rewrite He.
  unfold response_statusCode. rewrite bind_ret.
  now rewrite (status_success _ Hs).
Qed.

(** The handler on a 204 response. *)
Lemma handler_no_content (cb error : JsValue) (r : Http.Response)
    (body : option string) :
  ToBoolean error = false ->
  Http.statusCode r = 204%Z ->
  createResponseHandler cb error (Some r) body = call cb [VNull; VNull].
Proof.
  intros He Hs. unfold createResponseHandler. rewrite He.
  unfold response_statusCode. rewrite bind_ret, Hs. reflexivity.
Qed.

(** The handler on any other response. *)
Lemma handler_other (cb error : JsValue) (r : Http.Response)
    (body : option string) :
  ToBoolean error = false ->
  (Http.statusCode r <> 200 /\ Http.statusCode r <> 201
   /\ Http.statusCode r <> 204)%Z ->
  createResponseHandler cb error (Some r) body
  = (x <- try_ (JSON_parse_ body) ;;
     match x with
     | inl _ =>
         trace "Not a JSON resp for unexpected status ["
           (VInt (Http.statusCode r)) (Some r) ;;
         call cb [FreshdeskError (VStr not_json_message) VNull]
     | inr data =>
         trace "Unexpected/Error status [" (VInt (Http.statusCode r))
           (Some r) ;;
         description <- GetV data "description" ;;
         call cb [FreshdeskError description data]
     end).
Proof.
  intros He (H1 & H2 & H3). unfold createResponseHandler. rewrite He.
  unfold response_statusCode. rewrite bind_ret.
  rewrite (status_other _ (conj H1 H2)).
  apply Z.eqb_neq in H3. now rewrite H3.
Qed.

Lemma parse_ok (body : string) (v : JsValue) :
  JSON_parse body = Some v ->
  try_ (JSON_parse_ (Some body)) = ret (inr v).
Proof. intros H. unfold JSON_parse_. now rewrite H. Qed.

Lemma parse_fails (body : string) :
  JSON_parse body = None ->
  try_ (JSON_parse_ (Some body)) = ret (inl SyntaxError).
Proof. intros H. unfold JSON_parse_. now rewrite H. Qed.

End HandlerFacts.

(** ** The response classifier *)

Section Classifier.
Context {host : Host}.


(** Without a response, the trace line of the error branch reads
    [response.request] of undefined: the handler throws before the
    callback is reached, whatever the callback is. *)
Lemma transport_error_without_response (cb error : JsValue)
    (body : option string) :
  ToBoolean error = true ->
  createResponseHandler cb error None body = throw TypeError.
Proof.
  intros He. unfold createResponseHandler. rewrite He.
  now rewrite trace_none, bind_throw.
Qed.

(** C3: a 200 or 201 response whose body is valid JSON is a success: the
    callback is called once, with a null error and the value the body
    encodes, and nothing else happens. *)
Theorem success_delivers_parsed_body (f : nat) (error : JsValue)
    (r : Http.Response) (body : string) (v : JsValue) :
  ToBoolean error = false ->
  (Http.statusCode r = 200 \/ Http.statusCode r = 201)%Z ->
  JSON_parse body = Some v ->
  createResponseHandler (VFun f) error (Some r) (Some body)
  = ([EvCall f [VNull; v]], inr VUndefined).
Proof.
  intros He Hs Hp.
  rewrite (handler_success _ _ _ _ He Hs), (parse_ok _ _ Hp), bind_ret.
  apply call_fun.
Qed.

(** C4: a response with any status but 204 whose body is not JSON yields
    an API Error with message "Not a JSON response from API" and null
    data, delivered once; the result does not depend on the status, so the
    200/201 branch and the default branch agree. *)
Theorem not_json_delivers_api_error (f : nat) (error : JsValue)
    (r : Http.Response) (body : string) :
  ToBoolean error = false ->
  Http.statusCode r <> 204%Z ->
  JSON_parse body = None ->
  let run := createResponseHandler (VFun f) error (Some r) (Some body) in
  let err := FreshdeskError (VStr "Not a JSON response from API") VNull in
  calls (log run) = [(f, [err])]
  /\ completion run = inr VUndefined
  /\ own err "message" = Some (VStr "Not a JSON response from API")
  /\ own err "data" = Some VNull.
Proof.
  intros He Hs Hp run err. subst run err.
  destruct (status_cases (Http.statusCode r)) as [H | [H | H]].
  - rewrite (handler_success _ _ _ _ He H), (parse_fails _ Hp), bind_ret.
    rewrite trace_some, call_fun. repeat split.
  - contradiction.
  - rewrite (handler_other _ _ _ _ He H), (parse_fails _ Hp), bind_ret.
    rewrite trace_some, call_fun. repeat split.
Qed.

(** C5 (amended): a response with a status outside 200, 201 and 204 whose
    body parses to a JSON value other than null yields an API Error,
    delivered once, whose data is the parsed body and whose message is the
    body's [description] when that is truthy, and the generic message of
    [FreshdeskError] otherwise; 409 is like any other such status. *)
Theorem error_status_delivers_description (f : nat) (error : JsValue)
    (r : Http.Response) (body : string) (v : JsValue) :
  ToBoolean error = false ->
  (Http.statusCode r <> 200 /\ Http.statusCode r <> 201
   /\ Http.statusCode r <> 204)%Z ->
  JSON_parse body = Some v ->
  v <> VNull ->
  v <> VUndefined ->
  exists description,
    GetV v "description" = ret description
    /\ let run := createResponseHandler (VFun f) error (Some r) (Some body) in
       let err := FreshdeskError description v in
       calls (log run) = [(f, [err])]
       /\ completion run = inr VUndefined
       /\ own err "message"
          = Some (if ToBoolean description then description
                  else VStr "Error in Freshdesk's client API")
       /\ own err "data" = Some v.
Proof.
  intros He Hs Hp Hn Hu.
  assert (Hd : exists d, GetV v "description" = ret d).
  { destruct v; try (eexists; reflexivity); try contradiction;
      simpl; destruct (lookup _ _); eexists; reflexivity. }
  destruct Hd as [d Hd]. exists d. split; [exact Hd|].
  cbv zeta.
  rewrite (handler_other _ _ _ _ He Hs), (parse_ok _ _ Hp), bind_ret.
  rewrite trace_some, bind_emit, Hd, bind_ret, call_fun.
  repeat split.
Qed.

(** C6: a 204 response is a success with null data whatever the body is,
    text or undefined; the callback is called once and nothing else
    happens. *)
Theorem no_content_delivers_null (f : nat) (error : JsValue)
    (r : Http.Response) (body : option string) :
  ToBoolean error = false ->
  Http.statusCode r = 204%Z ->
  createResponseHandler (VFun f) error (Some r) body
  = ([EvCall f [VNull; VNull]], inr VUndefined).
Proof.
  intros He Hs. rewrite (handler_no_content _ _ _ _ He Hs). apply call_fun.
Qed.

(** C7 (amended): when the status is outside 200, 201 and 204 and the body
    parses to an object without a [description], the API Error carries
    the generic message "Error in Freshdesk's client API" and the parsed
    body as data. *)
Theorem missing_description_gets_generic_message (f : nat) (error : JsValue)
    (r : Http.Response) (body : string) (props : list (string * JsValue)) :
  ToBoolean error = false ->
  (Http.statusCode r <> 200 /\ Http.statusCode r <> 201
   /\ Http.statusCode r <> 204)%Z ->
  JSON_parse body = Some (VObj props) ->
  lookup "description" props = None ->
  let run := createResponseHandler (VFun f) error (Some r) (Some body) in
  exists err,
    calls (log run) = [(f, [err])]
    /\ completion run = inr VUndefined
    /\ own err "message" = Some (VStr "Error in Freshdesk's client API")
    /\ own err "data" = Some (VObj props).
Proof.
  intros He Hs Hp Hl run. subst run.
  exists (FreshdeskError VUndefined (VObj props)).
  rewrite (handler_other _ _ _ _ He Hs), (parse_ok _ _ Hp), bind_ret.
  rewrite trace_some, bind_emit. simpl GetV. rewrite Hl, bind_ret, call_fun.
  repeat split.
Qed.

(** When the body parses to null, reading [data.description] throws after
    the trace line: no callback is called. *)
Lemma null_body_throws (cb error : JsValue) (r : Http.Response)
    (body : string) :
  ToBoolean error = false ->
  (Http.statusCode r <> 200 /\ Http.statusCode r <> 201
   /\ Http.statusCode r <> 204)%Z ->
  JSON_parse body = Some VNull ->
  let run := createResponseHandler cb error (Some r) (Some body) in
  calls (log run) = [] /\ completion run = inl TypeError.
Proof.
  intros He Hs Hp run. subst run.
  rewrite (handler_other _ _ _ _ He Hs), (parse_ok _ _ Hp), bind_ret.
  rewrite trace_some, bind_emit. simpl. split; reflexivity.
Qed.

End Classifier.

(** ** The request builder *)

Section Builder.
Context {host : Host}.
Variable net : Options.t -> Outcome.

(** The handler traces and calls back; it submits no request. *)
Lemma handler_submits_nothing (cb error : JsValue)
    (response : option Http.Response) (body : option string) :
  submitted (log (createResponseHandler cb error response body)) = [].
Proof.
  unfold createResponseHandler.
  destruct (ToBoolean error) eqn:He.
  - destruct response as [r|]; [|reflexivity].
    rewrite trace_some, bind_emit. destruct cb; reflexivity.
  - destruct response as [r|]; [|reflexivity].
    unfold response_statusCode. rewrite bind_ret.
    destruct ((_ =? 200) || _)%Z; [|destruct (_ =? 204)%Z].
    + unfold JSON_parse_.
      destruct (JSON_parse _); simpl; destruct cb; reflexivity.
    + destruct cb; reflexivity.
    + unfold JSON_parse_.
      destruct (JSON_parse _) as [v|]; simpl; [|destruct cb; reflexivity].
      destruct v; try reflexivity; simpl;
        try (destruct cb; reflexivity);
        destruct (lookup _ _); destruct cb; reflexivity.
Qed.

(** Whatever it is given, the handler calls back at most once. *)
Lemma handler_calls_at_most_once (cb error : JsValue)
    (response : option Http.Response) (body : option string) :
  (length (calls (log (createResponseHandler cb error response body)))
   <= 1)%nat.
Proof.
  unfold createResponseHandler.
  destruct (ToBoolean error) eqn:He.
  - destruct response as [r|]; [|simpl; lia].
    rewrite trace_some, bind_emit. destruct cb; simpl; lia.
  - destruct response as [r|]; [|simpl; lia].
    unfold response_statusCode. rewrite bind_ret.
    destruct ((_ =? 200) || _)%Z; [|destruct (_ =? 204)%Z].
    + unfold JSON_parse_.
      destruct (JSON_parse _); simpl; destruct cb; simpl; lia.
    + destruct cb; simpl; lia.
    + unfold JSON_parse_.
      destruct (JSON_parse _) as [v|]; simpl; [|destruct cb; simpl; lia].
      destruct v; simpl; try lia;
        try (destruct cb; simpl; lia);
        destruct (lookup _ _); destruct cb; simpl; lia.
Qed.

(** [request] submits the options it is given, once. *)
Lemma request_submits (options : Options.t) (cb : JsValue) :
  submitted (log (request net options (createResponseHandler cb)))
  = [options].
Proof.
  unfold request. rewrite bind_emit. simpl.
  destruct (net options) as [[error response] body].
  now rewrite handler_submits_nothing.
Qed.

Lemma makeRequest_submits (method auth url : string) (qs data cb : JsValue) :
  submitted (log (makeRequest net method auth url qs data cb))
  = [built_options method auth url qs data].
Proof.
  unfold makeRequest. rewrite request_submits.
  unfold built_options. destruct (ToBoolean data); reflexivity.
Qed.

(** C8 (amended): the request [makeRequest] submits always has the headers
    Content-Type: application/json and Authorization: the credential; its
    body is [JSON.stringify(data)] when [data] is truthy, and it has no
    body when [data] is falsy (undefined, null, false, 0, NaN or the empty
    string). *)
Theorem makeRequest_headers_and_body (method auth url : string)
    (qs data cb : JsValue) :
  exists options,
    submitted (log (makeRequest net method auth url qs data cb)) = [options]
    /\ Options.headers options
       = [ ("Content-Type", "application/json"); ("Authorization", auth) ]
    /\ Options.body options
       = if ToBoolean data then Some (JSON_stringify_ data) else None.
Proof.
  exists (built_options method auth url qs data).
  rewrite makeRequest_submits. repeat split.
Qed.

(** C9: [getTicket(42, cb)] submits one request: GET on
    [{baseUrl}/api/v2/tickets/42], with null query parameters and no
    body. *)
Theorem getTicket_42_request (this : Freshdesk) (cb : JsValue) :
  submitted (log (getTicket net this 42 cb))
  = [ {| Options.method := "GET";
         Options.headers :=
           [ ("Content-Type", "application/json");
             ("Authorization", _auth this) ];
         Options.url := baseUrl this ++ "/api/v2/tickets/42";
         Options.qs := VNull;
         Options.body := None |} ].
Proof. unfold getTicket. now rewrite makeRequest_submits. Qed.

(** A handler made from an undefined callback calls nothing and ends in a
    TypeError. *)
Lemma handler_without_callback (error : JsValue)
    (response : option Http.Response) (body : option string) :
  let run := createResponseHandler VUndefined error response body in
  calls (log run) = [] /\ completion run = inl TypeError.
Proof.
  cbv zeta. unfold createResponseHandler.
  destruct (ToBoolean error) eqn:He.
  - destruct response as [r|]; [|split; reflexivity].
    rewrite trace_some, bind_emit. split; reflexivity.
  - destruct response as [r|]; [|split; reflexivity].
    unfold response_statusCode. rewrite bind_ret.
    destruct ((_ =? 200) || _)%Z; [|destruct (_ =? 204)%Z].
    + unfold JSON_parse_. destruct (JSON_parse _); split; reflexivity.
    + split; reflexivity.
    + unfold JSON_parse_.
      destruct (JSON_parse _) as [v|]; simpl; [|split; reflexivity].
      destruct v; simpl; try (split; reflexivity);
        destruct (lookup _ _); split; reflexivity.
Qed.

(** [listAllConversations] gives its callback to [makeRequest] as [data]:
    whatever the transport answers, the callback is never called and the
    handler ends in a TypeError. *)
Lemma listAllConversations_never_calls_back (this : Freshdesk) (id : Z)
    (cb : JsValue) :
  let run := listAllConversations net this id cb in
  calls (log run) = [] /\ completion run = inl TypeError.
Proof.
  cbv zeta. unfold listAllConversations, makeRequest, request.
  rewrite bind_emit.
  match goal with |- context [net ?o] => destruct (net o) as [[e r] b] end.
  destruct (handler_without_callback e r b) as [Hc Ht].
  split; [exact Hc | exact Ht].
Qed.

(** [listAllTimeEntries] passes its callback on: on a 200 response with a
    JSON body the callback receives the parsed body. *)
Lemma listAllTimeEntries_calls_back (this : Freshdesk) (id : Z) (f : nat)
    (r : Http.Response) (body : string) (v : JsValue) :
  (forall o, net o = (VNull, Some r, Some body)) ->
  Http.statusCode r = 200%Z ->
  JSON_parse body = Some v ->
  calls (log (listAllTimeEntries net this id (VFun f))) = [(f, [VNull; v])].
Proof.
  intros Hnet Hs Hp. unfold listAllTimeEntries, makeRequest, request.
  rewrite bind_emit, Hnet. simpl ToBoolean. cbv iota.
  unfold createResponseHandler. simpl ToBoolean. cbv iota.
  unfold response_statusCode. rewrite bind_ret, Hs. simpl orb. cbv iota.
  rewrite (parse_ok _ _ Hp), bind_ret. reflexivity.
Qed.

End Builder.

(** ** Concrete runs, on the reference host *)

Import Fixtures.

(** A 201 whose body is [[42, true]]. *)
Lemma success_delivers_parsed_body_witness :
  ToBoolean VNull = false
  /\ (Http.statusCode (response_of 201) = 200
      \/ Http.statusCode (response_of 201) = 201)%Z
  /\ JSON_parse "[42, true]" = Some (VArr [VInt 42; VBool true])
  /\ createResponseHandler (VFun 0) VNull (Some (response_of 201))
       (Some "[42, true]")
     = ([EvCall 0 [VNull; VArr [VInt 42; VBool true]]], inr VUndefined).
Proof.
  assert (He : ToBoolean VNull = false) by reflexivity.
  assert (Hs : (Http.statusCode (response_of 201) = 200
                \/ Http.statusCode (response_of 201) = 201)%Z)
    by (right; reflexivity).
  assert (Hp : JSON_parse "[42, true]" = Some (VArr [VInt 42; VBool true]))
    by (vm_compute; reflexivity).
  exact (conj He (conj Hs (conj Hp
    (success_delivers_parsed_body 0 VNull (response_of 201) "[42, true]"
       (VArr [VInt 42; VBool true]) He Hs Hp)))).
Defined.

(** A 502 whose body is the text [not json]. *)
Lemma not_json_delivers_api_error_witness :
  ToBoolean VNull = false
  /\ Http.statusCode (response_of 502) <> 204%Z
  /\ JSON_parse "not json" = None
  /\ let run := createResponseHandler (VFun 0) VNull (Some (response_of 502))
                  (Some "not json") in
     let err := FreshdeskError (VStr "Not a JSON response from API") VNull in
     calls (log run) = [(0, [err])]
     /\ completion run = inr VUndefined
     /\ own err "message" = Some (VStr "Not a JSON response from API")
     /\ own err "data" = Some VNull.
Proof.
  assert (He : ToBoolean VNull = false) by reflexivity.
  assert (Hs : Http.statusCode (response_of 502) <> 204%Z)
    by (simpl; lia).
  assert (Hp : JSON_parse "not json" = None) by (vm_compute; reflexivity).
  exact (conj He (conj Hs (conj Hp
    (not_json_delivers_api_error 0 VNull (response_of 502) "not json"
       He Hs Hp)))).
Defined.

(** A 409 whose body has the description "Name has already been taken". *)
Lemma error_status_delivers_description_witness :
  let body := description_body "Name has already been taken" in
  let v := VObj [("description", VStr "Name has already been taken")] in
  ToBoolean VNull = false
  /\ (Http.statusCode (response_of 409) <> 200
      /\ Http.statusCode (response_of 409) <> 201
      /\ Http.statusCode (response_of 409) <> 204)%Z
  /\ JSON_parse body = Some v
  /\ v <> VNull
  /\ v <> VUndefined
  /\ exists description,
       GetV v "description" = ret description
       /\ let run := createResponseHandler (VFun 0) VNull
                       (Some (response_of 409)) (Some body) in
          let err := FreshdeskError description v in
          calls (log run) = [(0, [err])]
          /\ completion run = inr VUndefined
          /\ own err "message"
             = Some (if ToBoolean description then description
                     else VStr "Error in Freshdesk's client API")
          /\ own err "data" = Some v.
Proof.
  intros body v.
  assert (He : ToBoolean VNull = false) by reflexivity.
  assert (Hs : (Http.statusCode (response_of 409) <> 200
                /\ Http.statusCode (response_of 409) <> 201
                /\ Http.statusCode (response_of 409) <> 204)%Z)
    by (simpl; lia).
  assert (Hp : JSON_parse body = Some v) by (vm_compute; reflexivity).
  assert (Hn : v <> VNull) by discriminate.
  assert (Hu : v <> VUndefined) by discriminate.
  exact (conj He (conj Hs (conj Hp (conj Hn (conj Hu
    (error_status_delivers_description 0 VNull (response_of 409) body v
       He Hs Hp Hn Hu)))))).
Defined.

(** On a 409 whose body is an object with the empty string as
    [description], the message is the generic one, not the description. *)
Lemma empty_description_is_replaced :
  let body := description_body EmptyString in
  let v := VObj [("description", VStr EmptyString)] in
  let run := createResponseHandler (VFun 0) VNull (Some (response_of 409))
               (Some body) in
  JSON_parse body = Some v
  /\ GetV v "description" = ret (VStr EmptyString)
  /\ exists err,
       calls (log run) = [(0, [err])]
       /\ own err "data" = Some v
       /\ own err "message" = Some (VStr "Error in Freshdesk's client API")
       /\ own err "message" <> Some (VStr EmptyString).
Proof.
  cbv zeta. split; [vm_compute; reflexivity|]. split; [reflexivity|].
  eexists. split; [vm_compute; reflexivity|].
  split; [reflexivity|]. split; [reflexivity|]. discriminate.
Qed.

(** A 204 whose body is not JSON. *)
Lemma no_content_delivers_null_witness :
  ToBoolean VNull = false
  /\ Http.statusCode (response_of 204) = 204%Z
  /\ createResponseHandler (VFun 0) VNull (Some (response_of 204))
       (Some "<html>not json")
     = ([EvCall 0 [VNull; VNull]], inr VUndefined).
Proof.
  assert (He : ToBoolean VNull = false) by reflexivity.
  assert (Hs : Http.statusCode (response_of 204) = 204%Z) by reflexivity.
  exact (conj He (conj Hs
    (no_content_delivers_null 0 VNull (response_of 204)
       (Some "<html>not json") He Hs))).
Defined.

(** A 401 whose body has a [code] and no [description]. *)
Lemma missing_description_gets_generic_message_witness :
  let props := [("code", VStr "invalid_credentials")] in
  ToBoolean VNull = false
  /\ (Http.statusCode (response_of 401) <> 200
      /\ Http.statusCode (response_of 401) <> 201
      /\ Http.statusCode (response_of 401) <> 204)%Z
  /\ JSON_parse code_body = Some (VObj props)
  /\ lookup "description" props = None
  /\ let run := createResponseHandler (VFun 0) VNull (Some (response_of 401))
                  (Some code_body) in
     exists err,
       calls (log run) = [(0, [err])]
       /\ completion run = inr VUndefined
       /\ own err "message" = Some (VStr "Error in Freshdesk's client API")
       /\ own err "data" = Some (VObj props).
Proof.
  intros props.
  assert (He : ToBoolean VNull = false) by reflexivity.
  assert (Hs : (Http.statusCode (response_of 401) <> 200
                /\ Http.statusCode (response_of 401) <> 201
                /\ Http.statusCode (response_of 401) <> 204)%Z)
    by (simpl; lia).
  assert (Hp : JSON_parse code_body = Some (VObj props))
    by (vm_compute; reflexivity).
  assert (Hl : lookup "description" props = None) by reflexivity.
  exact (conj He (conj Hs (conj Hp (conj Hl
    (missing_description_gets_generic_message 0 VNull (response_of 401)
       code_body props He Hs Hp Hl))))).
Defined.

(** On a 404 whose body is [{}] the message of the API Error is the
    generic text: it is not undefined. *)
Lemma missing_description_message_is_defined :
  let run := createResponseHandler (VFun 0) VNull (Some (response_of 404))
               (Some "{}") in
  JSON_parse "{}" = Some (VObj [])
  /\ GetV (VObj []) "description" = ret VUndefined
  /\ exists err,
       calls (log run) = [(0, [err])]
       /\ own err "message" = Some (VStr "Error in Freshdesk's client API")
       /\ own err "message" <> Some VUndefined.
Proof.
  cbv zeta. split; [vm_compute; reflexivity|]. split; [reflexivity|].
  eexists. split; [vm_compute; reflexivity|].
  split; [reflexivity|]. discriminate.
Qed.

(** With 0, the empty string or false as [data], values [JSON.stringify]
    does serialize, the submitted request has no body. *)
Lemma falsy_data_is_not_sent :
  let body_for (data : JsValue) :=
    map Options.body
      (submitted (log (makeRequest (replies 201 "{}") "POST" (_auth demo)
                         (baseUrl demo ++ "/api/v2/tickets") VNull data
                         (VFun 0)))) in
  JSON_stringify_ (VInt 0) = VStr "0"
  /\ body_for (VInt 0) = [None]
  /\ JSON_stringify_ (VStr EmptyString) = VStr (RefJSON.quoted EmptyString)
  /\ body_for (VStr EmptyString) = [None]
  /\ JSON_stringify_ (VBool false) = VStr "false"
  /\ body_for (VBool false) = [None].
Proof. cbv zeta. repeat split; vm_compute; reflexivity. Qed.

(** C1: [listAllConversations(42, cb)], answered by a 200 with body [[]]:
    the callback is never called and a TypeError leaves the handler, while
    [listAllTimeEntries], answered alike, calls back once with the parsed
    body. *)
Theorem listAllConversations_drops_callback :
  let net := replies 200 "[]" in
  let run := listAllConversations net demo 42 (VFun 0) in
  calls (log run) = []
  /\ completion run = inl TypeError
  /\ calls (log (listAllTimeEntries net demo 42 (VFun 0)))
     = [(0, [VNull; VArr []])].
Proof. cbv zeta. repeat split; vm_compute; reflexivity. Qed.

(** C2: a refused connection, reported by the transport with an error and
    no response: the handler throws a TypeError out of its trace line,
    and the callback is not called; so it is for [getTicket(42, cb)] on a
    network that refuses the connection. *)
Theorem transport_error_lost_without_response :
  let run := getTicket refuses demo 42 (VFun 0) in
  ToBoolean econnrefused = true
  /\ createResponseHandler (VFun 0) econnrefused None None
     = ([], inl TypeError)
  /\ calls (log run) = []
  /\ completion run = inl TypeError.
Proof. cbv zeta. repeat split; vm_compute; reflexivity. Qed.

(** C10: a 500 response whose body is the JSON text [null]: the body
    parses to null, reading its [description] throws a TypeError, and the
    callback is not called. *)
Theorem null_body_escapes_the_handler :
  let run := createResponseHandler (VFun 0) VNull (Some (response_of 500))
               (Some "null") in
  JSON_parse "null" = Some VNull
  /\ calls (log run) = []
  /\ completion run = inl TypeError.
Proof. cbv zeta. repeat split; vm_compute; reflexivity. Qed.

(** * Further properties of the classifier *)

Section ClassifierMore.
Context {host : Host}.

Lemma try_ret {A} (a : A) : try_ (ret a) = ret (inr a).
Proof. reflexivity. Qed.

Lemma try_throw {A} (e : Exn) : try_ (@throw A e) = ret (inl e).
Proof. reflexivity. Qed.

(** [JSON.parse(body)] returns a value or throws a SyntaxError. *)
Lemma JSON_parse_cases (body : option string) :
  (exists v, JSON_parse_ body = ret v) \/ JSON_parse_ body = throw SyntaxError.
Proof.
  unfold JSON_parse_. destruct (JSON_parse _) as [v|]; [left; now exists v|].
  now right.
Qed.

(** Reading [description] off anything but undefined and null returns. *)
Lemma GetV_defined (v : JsValue) (k : string) :
  v <> VNull -> v <> VUndefined -> exists d, GetV v k = ret d.
Proof.
  intros Hn Hu.
  destruct v; try contradiction; simpl;
    try (eexists; reflexivity);
    destruct (lookup _ _); eexists; reflexivity.
Qed.

Lemma GetV_cases (v : JsValue) (k : string) :
  (exists d, GetV v k = ret d) \/ GetV v k = throw TypeError.
Proof.
  destruct v; simpl; try (now right); try (left; eexists; reflexivity);
    destruct (lookup _ _); left; eexists; reflexivity.
Qed.

Lemma FreshdeskError_truthy (message data : JsValue) :
  ToBoolean (FreshdeskError message data) = true.
Proof. reflexivity. Qed.

(** The handler on a response, by the class of its status and by what
    [JSON.parse] and the read of [description] do: the five ways it can
    run when there is no transport error. *)
Lemma handler_on_response (cb error : JsValue) (r : Http.Response)
    (body : option string) :
  ToBoolean error = false ->
  let run := createResponseHandler cb error (Some r) body in
  (exists data, run = call cb [VNull; data])
  \/ (exists line message data,
        run = (emit (EvDebug line) ;;
               call cb [FreshdeskError message data]))
  \/ (exists line,
        run = ([EvDebug line], inl TypeError)
        /\ (Http.statusCode r <> 200 /\ Http.statusCode r <> 201
            /\ Http.statusCode r <> 204)%Z
        /\ (JSON_parse_ body = ret VNull
            \/ JSON_parse_ body = ret VUndefined)).
Proof.
  intros He run. subst run.
  destruct (status_cases (Http.statusCode r)) as [H | [H | H]].
  - rewrite (handler_success _ _ _ _ He H).
    destruct (JSON_parse_cases body) as [[v Hv] | Hv]; rewrite Hv.
    + left. exists v. now rewrite try_ret, bind_ret.
    + right; left. rewrite try_throw, bind_ret, trace_some.
      eexists _, _, _. reflexivity.
  - left. exists VNull. now apply handler_no_content.
  - rewrite (handler_other _ _ _ _ He H).
    destruct (JSON_parse_cases body) as [[v Hv] | Hv]; rewrite Hv.
    + rewrite try_ret, bind_ret, trace_some.
      destruct (GetV_cases v "description") as [[d Hd] | Hd].
      * right; left. eexists _, d, v. now rewrite Hd, bind_ret.
      * right; right. eexists.
        rewrite Hd, bind_emit. split; [reflexivity|]. split; [exact H|].
        destruct v; simpl in Hd; try discriminate; auto;
          destruct (lookup _ _); discriminate.
    + right; left. rewrite try_throw, bind_ret, trace_some.
      eexists _, _, _. reflexivity.
Qed.

(** The handler on a transport error: with a response, and without. *)
Lemma handler_on_error (cb error : JsValue) (r : Http.Response)
    (body : option string) :
  ToBoolean error = true ->
  createResponseHandler cb error (Some r) body
  = (emit (EvDebug [ Lit "Unexpected status ["; Sub error;
                     Lit "], req path [";
                     Sub (VStr (Http.path (Http.request r)));
                     Lit "] raw body: "; Sub (Http.body (Http.request r)) ]) ;;
     call cb [error]).
Proof.
  intros He. unfold createResponseHandler. rewrite He.
  now rewrite trace_some.
Qed.

Lemma handler_on_error_alone (cb error : JsValue) (body : option string) :
  ToBoolean error = true ->
  createResponseHandler cb error None body = throw TypeError.
Proof.
  intros He. unfold createResponseHandler. rewrite He.
  now rewrite trace_none, bind_throw.
Qed.

(** Without transport error and without response, reading the status
    throws. *)
Lemma handler_on_nothing (cb error : JsValue) (body : option string) :
  ToBoolean error = false ->
  createResponseHandler cb error None body = throw TypeError.
Proof.
  intros He. unfold createResponseHandler. now rewrite He.
Qed.

End ClassifierMore.

Section ClassifierExtras.
Context {host : Host}.



(** Whatever the handler is given, a callback invocation has one of two
    shapes: a single truthy error, or a null error followed by the data;
    and it is the handler's own callback that is invoked. *)
Theorem handler_argument_shapes (f : nat) (error : JsValue)
    (response : option Http.Response) (body : option string)
    (g : nat) (args : list JsValue) :
  In (g, args)
     (calls (log (createResponseHandler (VFun f) error response body))) ->
  g = f
  /\ ((exists e, args = [e] /\ ToBoolean e = true)
      \/ (exists data, args = [VNull; data])).
Proof.
  destruct (ToBoolean error) eqn:He.
  - destruct response as [r|].
    + rewrite (handler_on_error _ _ r body He), bind_emit, call_fun.
      simpl. intros [[= <- <-] | []]. split; [reflexivity|].
      left. now exists error.
    + rewrite (handler_on_error_alone _ _ _ He). intros [].
  - destruct response as [r|].
    + destruct (handler_on_response (VFun f) error r body He)
        as [[d ->] | [(l & m & d & ->) | (l & -> & _)]]; simpl.
      * intros [[= <- <-] | []]. split; [reflexivity|]. right. now exists d.
      * intros [[= <- <-] | []]. split; [reflexivity|]. left.
        eexists. split; [reflexivity | apply FreshdeskError_truthy].
      * intros [].
    + rewrite (handler_on_nothing _ _ _ He). intros [].
Qed.

(** The handler writes at most one trace line, and never after the
    callback: a success is delivered with no trace line, an error right
    after one. *)
Theorem handler_trace_discipline (f : nat) (error : JsValue)
    (response : option Http.Response) (body : option string) :
  let l := log (createResponseHandler (VFun f) error response body) in
  l = []
  \/ (exists line, l = [EvDebug line])
  \/ (exists data, l = [EvCall f [VNull; data]])
  \/ (exists line e, l = [EvDebug line; EvCall f [e]] /\ ToBoolean e = true).
Proof.
  cbv zeta. destruct (ToBoolean error) eqn:He.
  - destruct response as [r|].
    + rewrite (handler_on_error _ _ r body He), bind_emit, call_fun.
      right; right; right. eexists _, error. split; [reflexivity | exact He].
    + rewrite (handler_on_error_alone _ _ _ He). now left.
  - destruct response as [r|].
    + destruct (handler_on_response (VFun f) error r body He)
        as [[d ->] | [(l & m & d & ->) | (l & -> & _)]].
      * right; right; left. now exists d.
      * right; right; right. eexists l, _.
        split; [reflexivity | apply FreshdeskError_truthy].
      * right; left. now exists l.
    + rewrite (handler_on_nothing _ _ _ He). now left.
Qed.

(** When the callback is not a function, the handler calls nothing and
    ends in a TypeError, whatever the transport's outcome. *)
Theorem handler_needs_a_function (cb error : JsValue)
    (response : option Http.Response) (body : option string) :
  (forall f, cb <> VFun f) ->
  let run := createResponseHandler cb error response body in
  calls (log run) = [] /\ completion run = inl TypeError.
Proof.
  intros Hcb. cbv zeta.
  assert (Hcall : forall args, call cb args = throw TypeError).
  { intros args. destruct cb; try reflexivity. now destruct (Hcb f). }
  destruct (ToBoolean error) eqn:He.
  - destruct response as [r|].
    + rewrite (handler_on_error _ _ r body He), bind_emit, Hcall.
      split; reflexivity.
    + rewrite (handler_on_error_alone _ _ _ He). split; reflexivity.
  - destruct response as [r|].
    + destruct (handler_on_response cb error r body He)
        as [[d ->] | [(l & m & d & ->) | (l & -> & _)]].
      * rewrite Hcall. split; reflexivity.
      * rewrite bind_emit, Hcall. split; reflexivity.
      * split; reflexivity.
    + rewrite (handler_on_nothing _ _ _ He). split; reflexivity.
Qed.

(** A [FreshdeskError] is named FreshdeskError, keeps the data it is given,
    and always has a truthy message: the one it is given when that is
    truthy, the generic one otherwise. *)
Theorem FreshdeskError_fields (message data : JsValue) :
  let e := FreshdeskError message data in
  own e "name" = Some (VStr "FreshdeskError")
  /\ own e "data" = Some data
  /\ exists m,
       own e "message" = Some m
       /\ ToBoolean m = true
       /\ (ToBoolean message = true -> m = message)
       /\ (ToBoolean message = false
           -> m = VStr "Error in Freshdesk's client API").
Proof.
  cbv zeta. split; [reflexivity|]. split; [reflexivity|].
  exists (js_or message (VStr "Error in Freshdesk's client API")).
  split; [reflexivity|]. unfold js_or.
  destruct (ToBoolean message) eqn:Hm.
  - repeat split; auto; discriminate.
  - repeat split; auto; discriminate.
Qed.

End ClassifierExtras.

(** * Further properties of the request builder and the method table *)

Lemma prefix_append (a b c : string) :
  String.prefix (a ++ b) (a ++ c) = String.prefix b c.
Proof.
  induction a as [|x a IH]; simpl; [reflexivity|].
  destruct (ascii_dec x x); [exact IH | contradiction].
Qed.

(** Unfolds a call of a method of the table to its [makeRequest]. *)
Ltac unfold_operation :=
  cbv beta iota delta
    [ invoke
      listAllTickets listAllTicketFields createTicket getTicket
      updateTicket deleteTicket restoreTicket listAllConversations
      listAllTimeEntries createReply createNote updateConversation
      deleteConversation createContact getContact listAllContacts
      updateContact deleteContact makeAgent listAllContactFields
      createCompany getCompany listAllCompanies updateCompany
      deleteCompany ].

Section FacadeExtras.
Context {host : Host}.
Variable net : Options.t -> Outcome.
Variable this : Freshdesk.

(** [makeRequest] submits the options it built, then runs the handler on
    what the network answers to them. *)
Lemma makeRequest_runs_handler (method auth url : string)
    (qs data cb : JsValue) :
  let o := built_options method auth url qs data in
  makeRequest net method auth url qs data cb
  = (emit (EvRequest o) ;;
     createResponseHandler cb (fst (fst (net o))) (snd (fst (net o)))
       (snd (net o))).
Proof.
  cbv zeta. unfold makeRequest, request, built_options.
  destruct (ToBoolean data);
    cbv beta iota zeta delta
      [Options.set_body Options.method Options.headers Options.url
       Options.qs Options.body];
    match goal with |- context [net ?o] => destruct (net o) as [[e r] b] end;
    reflexivity.
Qed.

(** Every method but [listAllConversations] is a call of [makeRequest]
    with the client's credential and the caller's callback. *)
Lemma invoke_is_makeRequest (op : Operation) (cb : JsValue) :
  (forall id, op <> ListAllConversations id) ->
  exists method url qs data,
    invoke net this op cb
    = makeRequest net method (_auth this) url qs data cb.
Proof.
  intros Hop. destruct op; unfold_operation;
    try (eexists _, _, _, _; reflexivity).
  now destruct (Hop id).
Qed.

(** Every method submits exactly one request, before anything else
    happens, and that request carries the two fixed headers: the JSON
    content type and the client's credential. Any two calls on one client
    therefore carry the same Authorization header. *)
Theorem every_operation_submits_one_request (op : Operation) (cb : JsValue) :
  exists o rest,
    log (invoke net this op cb) = EvRequest o :: rest
    /\ submitted rest = []
    /\ Options.headers o
       = [ ("Content-Type", "application/json");
           ("Authorization", _auth this) ].
Proof.
  destruct op; unfold_operation;
    match goal with
    | |- context [makeRequest net ?m ?a ?u ?q ?d ?c] =>
        exists (built_options m a u q d);
        rewrite (makeRequest_runs_handler m a u q d c), bind_emit
    end;
    eexists; (split; [reflexivity|]);
    (split; [apply handler_submits_nothing | reflexivity]).
Qed.

(** The request of every method has one of the four methods GET, POST,
    PUT and DELETE, and a URL that starts with the client's base URL
    followed by /api/v2/. *)
Theorem every_operation_targets_the_api (op : Operation) (cb : JsValue) :
  exists o,
    submitted (log (invoke net this op cb)) = [o]
    /\ In (Options.method o) ["GET"; "POST"; "PUT"; "DELETE"]
    /\ String.prefix (baseUrl this ++ "/api/v2/") (Options.url o) = true.
Proof.
  destruct op; unfold_operation;
    match goal with
    | |- context [makeRequest net ?m ?a ?u ?q ?d ?c] =>
        exists (built_options m a u q d);
        rewrite (makeRequest_submits net m a u q d c)
    end;
    (split; [reflexivity|]);
    (split; [simpl; tauto | simpl Options.url; apply prefix_append]).
Qed.

(** A GET or DELETE request of any method but [listAllConversations] has
    no body, whatever the arguments; [deleteCompany] does not send the
    data it is given. *)
Theorem reads_and_deletes_have_no_body (op : Operation) (cb : JsValue) :
  (forall id, op <> ListAllConversations id) ->
  exists o,
    submitted (log (invoke net this op cb)) = [o]
    /\ (Options.method o = "GET" \/ Options.method o = "DELETE"
        -> Options.body o = None).
Proof.
  intros Hop.
  destruct op; try (now destruct (Hop id)); unfold_operation;
    match goal with
    | |- context [makeRequest net ?m ?a ?u ?q ?d ?c] =>
        exists (built_options m a u q d);
        rewrite (makeRequest_submits net m a u q d c)
    end;
    (split; [reflexivity|]);
    simpl; intros [H | H]; try discriminate H; reflexivity.
Qed.


End FacadeExtras.

(** ** Addressing *)













Section Addressing.
Context {host : Host}.
Variable net : Options.t -> Outcome.
Variable this : Freshdesk.


End Addressing.

(** ** The credential *)











(** ** From a method to the callback *)

Section Composition.
Context {host : Host}.
Variable net : Options.t -> Outcome.
Variable this : Freshdesk.

(** A method, up to its request: what follows the submission of the
    request is the handler, made from the caller's callback, run on the
    network's answer to that request. *)
Lemma invoke_runs_handler (op : Operation) (cb : JsValue) :
  (forall id, op <> ListAllConversations id) ->
  exists o,
    invoke net this op cb
    = (emit (EvRequest o) ;;
       createResponseHandler cb (fst (fst (net o))) (snd (fst (net o)))
         (snd (net o))).
Proof.
  intros Hop.
  destruct (invoke_is_makeRequest net this op cb Hop) as (m & u & q & d & ->).
  eexists. apply makeRequest_runs_handler.
Qed.

(** Every method but [listAllConversations] hands the network's answer to
    the classifier: the callback invocations of the call, and the way it
    ends, are those of the handler run on the answer to the submitted
    request. *)
Theorem operation_runs_classifier (op : Operation) (cb : JsValue) :
  (forall id, op <> ListAllConversations id) ->
  exists o error response body,
    submitted (log (invoke net this op cb)) = [o]
    /\ net o = (error, response, body)
    /\ calls (log (invoke net this op cb))
       = calls (log (createResponseHandler cb error response body))
    /\ completion (invoke net this op cb)
       = completion (createResponseHandler cb error response body).
Proof.
  intros Hop. destruct (invoke_runs_handler op cb Hop) as [o ->].
  destruct (net o) as [[error response] body] eqn:Hnet.
  exists o, error, response, body. simpl fst; simpl snd.
  rewrite bind_emit.
  set (h := createResponseHandler cb error response body).
  split; [|split; [exact Hnet | split; reflexivity]].
  change (o :: submitted (log h) = [o]).
  unfold h. now rewrite handler_submits_nothing.
Qed.

(** End to end: when the network answers 200 or 201 with a body that is
    valid JSON, every method but [listAllConversations] gives the caller's
    callback, once, a null error and the value the body encodes. *)
Theorem operation_delivers_parsed_body (op : Operation) (f : nat)
    (error : JsValue) (r : Http.Response) (body : string) (v : JsValue) :
  (forall id, op <> ListAllConversations id) ->
  (forall o, net o = (error, Some r, Some body)) ->
  ToBoolean error = false ->
  (Http.statusCode r = 200 \/ Http.statusCode r = 201)%Z ->
  JSON_parse body = Some v ->
  let run := invoke net this op (VFun f) in
  calls (log run) = [(f, [VNull; v])] /\ completion run = inr VUndefined.
Proof.
  intros Hop Hnet He Hs Hp run. subst run.
  destruct (invoke_runs_handler op (VFun f) Hop) as [o ->].
  rewrite Hnet. simpl fst; simpl snd. rewrite bind_emit.
  rewrite (handler_success _ _ _ _ He Hs), (parse_ok _ _ Hp), bind_ret.
  split; reflexivity.
Qed.

(** Query parameters are sent by [listAllTickets] and [listAllContacts]
    only, and as they are given; every other method sends null. *)
Theorem only_lists_send_query_parameters (op : Operation) (cb : JsValue) :
  exists o,
    submitted (log (invoke net this op cb)) = [o]
    /\ ((exists params,
           (op = ListAllTickets params \/ op = ListAllContacts params)
           /\ Options.qs o = params)
        \/ ((forall params, op <> ListAllTickets params
                            /\ op <> ListAllContacts params)
            /\ Options.qs o = VNull)).
Proof.
  destruct op; unfold_operation;
    match goal with
    | |- context [makeRequest net ?m ?a ?u ?q ?d ?c] =>
        exists (built_options m a u q d);
        rewrite (makeRequest_submits net m a u q d c)
    end;
    (split; [reflexivity|]);
    first [ left; eexists; split; [(left + right); reflexivity | reflexivity]
          | right; split; [intros p; split; discriminate | reflexivity] ].
Qed.

End Composition.

(** ** Concrete runs of the further properties *)


(** The same error reported alone. *)
Lemma transport_error_without_response_witness :
  ToBoolean econnrefused = true
  /\ createResponseHandler (VFun 0) econnrefused None None = throw TypeError.
Proof.
  assert (He : ToBoolean econnrefused = true) by reflexivity.
  exact (conj He
           (transport_error_without_response (VFun 0) econnrefused None He)).
Defined.


(** A 200 whose body is [[1]]: the one invocation has a null error. *)
Lemma handler_argument_shapes_witness :
  let args := [VNull; VArr [VInt 1]] in
  In (0, args)
     (calls (log (createResponseHandler (VFun 0) VNull
                    (Some (response_of 200)) (Some "[1]"))))
  /\ 0 = 0
  /\ ((exists e, args = [e] /\ ToBoolean e = true)
      \/ (exists data, args = [VNull; data])).
Proof.
  intros args.
  assert (H : In (0, args)
                (calls (log (createResponseHandler (VFun 0) VNull
                               (Some (response_of 200)) (Some "[1]")))))
    by (vm_compute; left; reflexivity).
  exact (conj H
           (handler_argument_shapes 0 VNull (Some (response_of 200))
              (Some "[1]") 0 args H)).
Defined.

(** A string given as callback, on a 200 with a JSON body. *)
Lemma handler_needs_a_function_witness :
  (forall f, VStr "callback" <> VFun f)
  /\ let run := createResponseHandler (VStr "callback") VNull
                  (Some (response_of 200)) (Some "{}") in
     calls (log run) = [] /\ completion run = inl TypeError.
Proof.
  assert (H : forall f, VStr "callback" <> VFun f)
    by (intros f; discriminate).
  exact (conj H
           (handler_needs_a_function (VStr "callback") VNull
              (Some (response_of 200)) (Some "{}") H)).
Defined.

(** A 500 whose body is the text [null]. *)
Lemma null_body_throws_witness :
  let r := response_of 500 in
  ToBoolean VNull = false
  /\ (Http.statusCode r <> 200 /\ Http.statusCode r <> 201
      /\ Http.statusCode r <> 204)%Z
  /\ JSON_parse "null" = Some VNull
  /\ let run := createResponseHandler (VFun 0) VNull (Some r)
                  (Some "null") in
     calls (log run) = [] /\ completion run = inl TypeError.
Proof.
  intros r.
  assert (He : ToBoolean VNull = false) by reflexivity.
  assert (Hs : (Http.statusCode r <> 200 /\ Http.statusCode r <> 201
                /\ Http.statusCode r <> 204)%Z) by (simpl; lia).
  assert (Hp : JSON_parse "null" = Some VNull) by (vm_compute; reflexivity).
  exact (conj He (conj Hs (conj Hp
           (null_body_throws (VFun 0) VNull r "null" He Hs Hp)))).
Defined.

(** [deleteCompany(7, data, cb)] sends no body. *)
Lemma reads_and_deletes_have_no_body_witness :
  let op := DeleteCompany 7 (VObj [("name", VStr "ACME")]) in
  let net := replies 204 EmptyString in
  (forall id, op <> ListAllConversations id)
  /\ exists o,
       submitted (log (invoke net demo op (VFun 0))) = [o]
       /\ (Options.method o = "GET" \/ Options.method o = "DELETE"
           -> Options.body o = None).
Proof.
  intros op net.
  assert (H : forall id, op <> ListAllConversations id)
    by (intros id; discriminate).
  exact (conj H (reads_and_deletes_have_no_body net demo op (VFun 0) H)).
Defined.




(** [createContact(data, cb)] on a network that answers 201. *)
Lemma operation_runs_classifier_witness :
  let op := CreateContact (VObj [("name", VStr "Ann")]) in
  let net := replies 201 "{}" in
  (forall id, op <> ListAllConversations id)
  /\ exists o error response body,
       submitted (log (invoke net demo op (VFun 0))) = [o]
       /\ net o = (error, response, body)
       /\ calls (log (invoke net demo op (VFun 0)))
          = calls (log (createResponseHandler (VFun 0) error response body))
       /\ completion (invoke net demo op (VFun 0))
          = completion (createResponseHandler (VFun 0) error response body).
Proof.
  intros op net.
  assert (H : forall id, op <> ListAllConversations id)
    by (intros id; discriminate).
  exact (conj H (operation_runs_classifier net demo op (VFun 0) H)).
Defined.

(** [createTicket(data, cb)] answered by a 201 with the new ticket. *)
Lemma operation_delivers_parsed_body_witness :
  let op := CreateTicket (VObj [("subject", VStr "Help")]) in
  let body := "{" ++ RefJSON.quoted "id" ++ ":7}" in
  let net := replies 201 body in
  let v := VObj [("id", VInt 7)] in
  (forall id, op <> ListAllConversations id)
  /\ (forall o, net o = (VNull, Some (response_of 201), Some body))
  /\ ToBoolean VNull = false
  /\ (Http.statusCode (response_of 201) = 200
      \/ Http.statusCode (response_of 201) = 201)%Z
  /\ JSON_parse body = Some v
  /\ let run := invoke net demo op (VFun 0) in
     calls (log run) = [(0, [VNull; v])] /\ completion run = inr VUndefined.
Proof.
  intros op body net v.
  assert (H : forall id, op <> ListAllConversations id)
    by (intros id; discriminate).
  assert (Hnet : forall o,
             net o = (VNull, Some (response_of 201), Some body))
    by (intros o; reflexivity).
  assert (He : ToBoolean VNull = false) by reflexivity.
  assert (Hs : (Http.statusCode (response_of 201) = 200
                \/ Http.statusCode (response_of 201) = 201)%Z)
    by (right; reflexivity).
  assert (Hp : JSON_parse body = Some v) by (vm_compute; reflexivity).
  exact (conj H (conj Hnet (conj He (conj Hs (conj Hp
           (operation_delivers_parsed_body net demo op 0 VNull
              (response_of 201) body v H Hnet He Hs Hp)))))).
Defined.
